(** * The coffee-shop drinks service ([backend/src/api.py])

    A shallow embedding of the Flask application: the five route handlers,
    the three error handlers and [get_error_message], over explicit models of
    the Python values they handle, of the exceptions they raise and of the
    collaborators the module imports ([.auth.auth] and [.database.models]). *)

From Stdlib Require Import ZArith List String Ascii Bool Lia.
Import ListNotations.
Set Warnings "-register-all".
Local Open Scope string_scope.
Local Open Scope Z_scope.

(* ================================================================= *)
(** ** Python values *)

Module Py.

(** What [request.get_json()] and the handlers' dict literals are made of.
    Numbers are the integers; a dict is its list of items, looked up from the
    front. *)
Inductive value : Type :=
| PNone
| PBool (b : bool)
| PInt (n : Z)
| PStr (s : string)
| PList (items : list value)
| PDict (items : list (string * value)).

(** Truth value testing, the [if not x] of the handlers. *)
Definition truth (v : value) : bool :=
  match v with
  | PNone => false
  | PBool b => b
  | PInt n => negb (n =? 0)
  | PStr s => negb (s =? EmptyString)%string
  | PList items => match items with [] => false | _ :: _ => true end
  | PDict items => match items with [] => false | _ :: _ => true end
  end.

Fixpoint lookup (key : string) (items : list (string * value)) : option value :=
  match items with
  | [] => None
  | (k, v) :: rest => if (k =? key)%string then Some v else lookup key rest
  end.

(** [dict.get(key, None)] *)
Definition dict_get (items : list (string * value)) (key : string) : value :=
  match lookup key items with
  | Some v => v
  | None => PNone
  end.

(** [needle in haystack] on strings. *)
Fixpoint contains (needle haystack : string) : bool :=
  String.prefix needle haystack
  || match haystack with
     | EmptyString => false
     | String _ rest => contains needle rest
     end.

(** ['{} cannot be blank'.format(what)] *)
Definition cannot_be_blank (what : string) : string :=
  what ++ " cannot be blank".

End Py.

Import Py.

(* ================================================================= *)
(** ** Exceptions *)

(** [AuthError] is imported from [.auth.auth]; the handlers read its two
    attributes, [e.error] and [e.status_code]. *)
Record AuthError : Type := mkAuthError {
  error : value;
  status_code : Z
}.

(** The exceptions that travel through the handlers.  An [HTTPException] is
    what [abort(code, description)] raises; [StoreException] stands for
    whatever the database session raises, with its detail. *)
Record HTTPException : Type := mkHTTPException {
  code : Z;
  description : value
}.

Inductive exn : Type :=
| HTTPError (error : HTTPException)
| AuthErrorRaised (e : AuthError)
| KeyError (key : string)
| TypeError
| AttributeError (attr : string)
| StoreException (detail : string).

(** Werkzeug's description of an exception class, used when [abort] gets no
    description of its own.  Always a [str]. *)
Definition default_description (code : Z) : string :=
  if code =? 404 then
    "The requested URL was not found on the server. If you entered the URL manually please check your spelling and try again."
  else if code =? 422 then
    "The request was well-formed but was unable to be followed due to semantic errors."
  else if code =? 405 then
    "The method is not allowed for the requested URL."
  else EmptyString.

(* ================================================================= *)
(** ** Computations: a store threaded through, an exception or a result *)

Section Monad.
Context {S : Type}.

Definition M (A : Type) : Type := S -> (exn + A) * S.

Definition ret {A} (a : A) : M A := fun s => (inr a, s).

Definition raise {A} (e : exn) : M A := fun s => (inl e, s).

Definition bind {A B} (m : M A) (k : A -> M B) : M B :=
  fun s =>
    match m s with
    | (inr a, s') => k a s'
    | (inl e, s') => (inl e, s')
    end.

(** [try: m  except Exception: h] *)
Definition try_except {A} (m : M A) (h : exn -> M A) : M A :=
  fun s =>
    match m s with
    | (inl e, s') => h e s'
    | r => r
    end.

(** [abort(code)] and [abort(code, description=d)] *)
Definition abort {A} (code : Z) (description : option value) : M A :=
  raise (HTTPError
           (mkHTTPException code
              (match description with
               | Some d => d
               | None => PStr (default_description code)
               end))).
End Monad.

Arguments M : clear implicits.

Declare Scope py_scope.
Delimit Scope py_scope with py.
Notation "x <- m ;; k" := (bind m (fun x => k))
  (at level 61, m at next level, right associativity) : py_scope.
Notation "m ;;; k" := (bind m (fun _ => k))
  (at level 61, right associativity) : py_scope.
Local Open Scope py_scope.

(** [d.get(key, None)]: only a dict has the method. *)
Definition get {S} (d : value) (key : string) : M S value :=
  match d with
  | PDict items => ret (dict_get items key)
  | _ => raise (AttributeError "get")
  end.

(** [v[key]] for a string key: [KeyError] on a dict without the key,
    [TypeError] on a [str], a list, a number or [None]. *)
Definition getitem (v : value) (key : string) : exn + value :=
  match v with
  | PDict items =>
      match lookup key items with
      | Some x => inr x
      | None => inl (KeyError key)
      end
  | _ => inl TypeError
  end.

(* ================================================================= *)
(** ** The [json] module *)

(** The text [json.dumps] produces.  A text is identified with the value it
    serialises, which is what [json.loads] gives back: the store only ever
    holds texts that [json.dumps] wrote. *)
Inductive Text : Type := Dumped (v : value).

Definition json_dumps (v : value) : Text := Dumped v.

Definition json_loads (t : Text) : value := let 'Dumped v := t in v.

(* ================================================================= *)
(** ** The Resource Store ([.database.models]) *)

Module Models.

(** Modelled from the spec: [database/models.py] is not among the sources.
    A drink has an id, a title and a recipe (structured data serialised as
    text); the id is [None] until the row is inserted, and the title is kept
    as the handler passed it. *)
Record Drink : Type := mkDrink {
  id : option Z;
  title : value;
  recipe : Text
}.

(** Modelled from the spec: the table behind [Drink.query], its rows in
    insertion order. *)
Definition Store : Type := list Drink.

(** Modelled from the spec: [short()] = [{id, title}]. *)
Definition short (d : Drink) : value :=
  PDict [("id", match id d with Some i => PInt i | None => PNone end);
         ("title", title d)].

(** Modelled from the spec: [long()] = [{id, title, recipe}], the recipe
    parsed from its stored text form. *)
Definition long (d : Drink) : value :=
  PDict [("id", match id d with Some i => PInt i | None => PNone end);
         ("title", title d);
         ("recipe", json_loads (recipe d))].

Definition has_id (drink_id : Z) (d : Drink) : bool :=
  match id d with
  | Some i => i =? drink_id
  | None => false
  end.

Definition same_row (d r : Drink) : bool :=
  match id d with
  | Some i => has_id i r
  | None => false
  end.

(** Modelled from the spec: the id a new row gets, one more than the largest
    id in the table. *)
Definition next_id (db : Store) : Z :=
  1 + fold_right (fun d m => match id d with Some i => Z.max i m | None => m end)
        0 db.

(** Modelled from the spec: [Drink.query.all()]. *)
Definition query_all : M Store (list Drink) :=
  fun db => (inr db, db).

(** Modelled from the spec: [Drink.query.get(drink_id)] and
    [Drink.query.filter(Drink.id == drink_id).one_or_none()]: the row with
    that id, or [None]. *)
Definition query_get (drink_id : Z) : M Store (option Drink) :=
  fun db => (inr (find (has_id drink_id) db), db).

(** Modelled from the spec: the three operations that write.  The handlers
    guard exactly these with [try]/[except]; [fault] says whether the session
    raises this time ([Some detail]) or commits ([None]).  A write that
    raises leaves the table as it was. *)
Definition insert (fault : option string) (d : Drink) : M Store Drink :=
  fun db =>
    match fault with
    | Some detail => (inl (StoreException detail), db)
    | None =>
        let d' := mkDrink (Some (next_id db)) (title d) (recipe d) in
        (inr d', (db ++ [d'])%list)
    end.

Definition update (fault : option string) (d : Drink) : M Store unit :=
  fun db =>
    match fault with
    | Some detail => (inl (StoreException detail), db)
    | None => (inr tt, map (fun r => if same_row d r then d else r) db)
    end.

Definition delete (fault : option string) (d : Drink) : M Store unit :=
  fun db =>
    match fault with
    | Some detail => (inl (StoreException detail), db)
    | None => (inr tt, filter (fun r => negb (same_row d r)) db)
    end.

End Models.

Import Models.

(* ================================================================= *)
(** ** Authorization ([.auth.auth]) *)

Module Auth.

(** Modelled from the spec: the claims a verified token decodes to, a
    [permissions] entry that may be missing and an open bag of other
    claims. *)
Record Claims : Type := mkClaims {
  permissions : option (list string);
  other_claims : list (string * value)
}.

Definition Headers : Type := list (string * string).

(** Modelled from the spec: [auth/auth.py] is not among the sources.  The
    Claims Verifier (header parsing, key lookup, signature and claim checks)
    is taken whole: from the request's headers it gives the claims or a
    classified failure.  The two error payloads of the Permission Gate, an
    error code with its description, are the provider's as well. *)
Class AuthService : Type := {
  claims_verifier : Headers -> AuthError + Claims;
  permissions_missing : value;
  unauthorized : value
}.

(** Modelled from the spec: the Permission Gate.  [PermissionsMissing] (400)
    when the claims have no permissions entry at all, [Unauthorized] (403)
    when the required permission is not among them. *)
Definition permission_gate `{AuthService} (permission : string)
    (claims : Claims) : AuthError + unit :=
  match permissions claims with
  | None => inl (mkAuthError permissions_missing 400)
  | Some granted =>
      if existsb (String.eqb permission) granted then inr tt
      else inl (mkAuthError unauthorized 403)
  end.

(** Modelled from the spec: the decorator.  It runs the verifier, then the
    gate, and only then the wrapped operation, on the verified claims. *)
Definition requires_auth `{AuthService} {S A} (permission : string)
    (headers : Headers) (f : Claims -> M S A) : M S A :=
  match claims_verifier headers with
  | inl e => raise (AuthErrorRaised e)
  | inr payload =>
      match permission_gate permission payload with
      | inl e => raise (AuthErrorRaised e)
      | inr _ => f payload
      end
  end.

End Auth.

Import Auth.

(* ================================================================= *)
(** ** Requests and responses (Flask) *)

(** The methods the URL map has rules for, and [OTHER] for a method it has
    none for.  [HEAD] and [OPTIONS], which the framework answers on its own,
    and a body that is not well-formed JSON, which it refuses with 400, are
    left out. *)
Inductive Method : Type := GET | POST | PATCH | DELETE | OTHER.

(** The URL after routing: the three rules of the module (the [<int:drink_id>]
    converter has parsed the id) or no rule at all. *)
Inductive Path : Type :=
| drinks
| drinks_detail
| drinks_id (drink_id : Z)
| elsewhere.

Record Request : Type := mkRequest {
  method : Method;
  path : Path;
  headers : Headers;
  json : option value
}.

(** [request.get_json()]: the parsed body, [None] when the request carries no
    JSON (a JSON [null] parses to [None] too). *)
Definition get_json (request : Request) : value :=
  match json request with
  | Some v => v
  | None => PNone
  end.

(** A response body: JSON, or a page of the framework's own. *)
Inductive Body : Type :=
| Json (v : value)
| Page.

Record Response : Type := mkResponse {
  body : Body;
  status : Z
}.

Definition jsonify (v : value) : Response := mkResponse (Json v) 200.

(** [return response, code] *)
Definition with_status (r : Response) (code : Z) : Response :=
  mkResponse (body r) code.

(* ================================================================= *)
(** ** [api.py] *)

Module Api.

Section Routes.
Context `{AuthService}.

(** The outcome of this request's database write, see [Models.insert]. *)
Variable fault : option string.
Variable request : Request.

(** [GET /drinks] *)
Definition get_drinks : M Store Response :=
  drinks_query <- query_all ;;
  ret (jsonify (PDict [("success", PBool true);
                       ("drinks", PList (map short drinks_query))])).

(** [GET /drinks-detail] *)
Definition get_drink_detail (payload : Claims) : M Store Response :=
  drinks_query <- query_all ;;
  ret (jsonify (PDict [("success", PBool true);
                       ("drinks", PList (map long drinks_query))])).

(** [POST /drinks] *)
Definition create_drink (payload : Claims) : M Store Response :=
  let body := get_json request in
  if negb (truth body) then
    abort 422 (Some (PDict [("message", PStr "invalid body JSON")]))
  else
    new_drink <- get body "title" ;;
    new_recipe <- get body "recipe" ;;
    if negb (truth new_drink) then
      abort 422 (Some (PDict [("message", PStr (cannot_be_blank "drink"))]))
    else if negb (truth new_recipe) then
      abort 422 (Some (PDict [("message", PStr (cannot_be_blank "recipe"))]))
    else
      try_except
        (let drink := mkDrink None new_drink (json_dumps new_recipe) in
         drink <- insert fault drink ;;
         ret (jsonify (PDict [("success", PBool true);
                              ("drinks", PList [long drink])])))
        (fun _ =>
           abort 404 (Some (PDict [("message", PStr "failed to add a drink")]))).

(** [PATCH /drinks/<id>] *)
Definition update_drink (payload : Claims) (drink_id : Z) : M Store Response :=
  let body := get_json request in
  if negb (truth body) then
    abort 422 (Some (PDict [("message", PStr "invalid body JSON")]))
  else
    found <- query_get drink_id ;;
    match found with
    | None => abort 404 (Some (PDict [("message", PStr "drinks not found")]))
    | Some drink =>
        title <- get body "title" ;;
        recipe <- get body "recipe" ;;
        try_except
          (let drink :=
             if truth title
             then mkDrink (id drink) title (Models.recipe drink)
             else drink in
           let drink :=
             if truth recipe
             then mkDrink (id drink) (Models.title drink) (json_dumps recipe)
             else drink in
           update fault drink ;;;
           ret (jsonify (PDict [("success", PBool true);
                                ("drinks", PList [long drink])])))
          (fun _ => abort 422 None)
    end.

(** [DELETE /drinks/<id>] *)
Definition delete_drinks (payload : Claims) (drink_id : Z) : M Store Response :=
  found <- query_get drink_id ;;
  match found with
  | None => abort 404 (Some (PDict [("message", PStr "drinks not found")]))
  | Some drink =>
      try_except
        (delete fault drink ;;;
         ret (jsonify (PDict [("success", PBool true);
                              ("deleted", PInt drink_id)])))
        (fun _ => abort 422 None)
  end.

(** The URL map built by the [@app.route] decorators, each protected view
    under its [@requires_auth]. *)
Definition dispatch_request : M Store Response :=
  match path request, method request with
  | drinks, GET => get_drinks
  | drinks, POST =>
      requires_auth "post:drinks" (headers request) create_drink
  | drinks_detail, GET =>
      requires_auth "get:drinks-detail" (headers request) get_drink_detail
  | drinks_id drink_id, PATCH =>
      requires_auth "patch:drinks" (headers request)
        (fun payload => update_drink payload drink_id)
  | drinks_id drink_id, DELETE =>
      requires_auth "delete:drinks" (headers request)
        (fun payload => delete_drinks payload drink_id)
  | elsewhere, _ => abort 404 None
  | _, _ => abort 405 None
  end.
End Routes.

(** *** Error handling *)

Definition get_error_message (error : HTTPException) (default_message : string)
    : exn + value :=
  match getitem (description error) "message" with
  | inl TypeError => inr (PStr default_message)
  | r => r
  end.

Definition unprocessable (error : HTTPException) : exn + Response :=
  match get_error_message error "unprocessable" with
  | inl e => inl e
  | inr message =>
      inr (with_status
             (jsonify (PDict [("success", PBool false);
                              ("error", PInt 422);
                              ("message", message)]))
             422)
  end.

Definition not_found (error : HTTPException) : exn + Response :=
  match get_error_message error "resource not found" with
  | inl e => inl e
  | inr message =>
      inr (with_status
             (jsonify (PDict [("success", PBool false);
                              ("error", PInt 404);
                              ("message", message)]))
             404)
  end.

Definition auth_error (e : AuthError) : Response :=
  with_status
    (jsonify (PDict [("success", PBool false);
                     ("error", PInt (status_code e));
                     ("message", error e)]))
    401.

(** *** The application *)

(** What the framework answers when an exception has no handler, or when a
    handler raises itself. *)
Definition internal_server_error : Response := mkResponse Page 500.

(** The handlers registered with [@app.errorhandler]: 422, 404 and
    [AuthError].  Any other HTTP exception is its own response. *)
Definition handle_user_exception (e : exn) : Response :=
  match e with
  | HTTPError error =>
      if code error =? 422 then
        match unprocessable error with
        | inr r => r
        | inl _ => internal_server_error
        end
      else if code error =? 404 then
        match not_found error with
        | inr r => r
        | inl _ => internal_server_error
        end
      else mkResponse Page (code error)
  | AuthErrorRaised e => auth_error e
  | _ => internal_server_error
  end.

(** A view function run to its response. *)
Definition respond (view : M Store Response) (db : Store) : Response * Store :=
  match view db with
  | (inr r, db') => (r, db')
  | (inl e, db') => (handle_user_exception e, db')
  end.

Definition full_dispatch_request `{AuthService} (fault : option string)
    (request : Request) : Store -> Response * Store :=
  respond (dispatch_request fault request).

End Api.

Import Api.

(* ================================================================= *)
(** ** A concrete deployment *)

Module Demo.

Definition header (name : string) (hs : Headers) : option string :=
  option_map snd (find (fun h => (fst h =? name)%string) hs).

Definition bearer (token : string) : Headers :=
  [("Authorization", "Bearer " ++ token)].

Definition failure (code description : string) : value :=
  PDict [("code", PStr code); ("description", PStr description)].

(** Three tokens are known to this provider: the manager's carries every
    permission, the barista's only the right to read, and the trainee's was
    issued without a permissions entry. *)
Definition provider : AuthService := {|
  claims_verifier hs :=
    match header "Authorization" hs with
    | None =>
        inl (mkAuthError
               (failure "authorization_header_missing"
                        "Authorization header is expected.") 401)
    | Some v =>
        if (v =? "Bearer manager")%string then
          inr (mkClaims (Some ["get:drinks-detail"; "post:drinks";
                               "patch:drinks"; "delete:drinks"]) [])
        else if (v =? "Bearer barista")%string then
          inr (mkClaims (Some ["get:drinks-detail"]) [])
        else if (v =? "Bearer trainee")%string then
          inr (mkClaims None [])
        else
          inl (mkAuthError
                 (failure "invalid_header"
                          "Unable to parse authentication token.") 401)
    end;
  permissions_missing :=
    failure "invalid_claims" "Permissions not included in JWT.";
  unauthorized := failure "unauthorized" "Permission not found."
|}.

Definition manager : Claims :=
  mkClaims (Some ["get:drinks-detail"; "post:drinks";
                  "patch:drinks"; "delete:drinks"]) [].

Definition water : Drink :=
  mkDrink (Some 1) (PStr "Water")
    (json_dumps (PList [PDict [("name", PStr "water");
                               ("color", PStr "blue");
                               ("parts", PInt 1)]])).

Definition mocha : Drink :=
  mkDrink (Some 2) (PStr "Mocha")
    (json_dumps (PList [PDict [("name", PStr "coffee");
                               ("color", PStr "brown");
                               ("parts", PInt 2)]])).

Definition menu : Store := [water; mocha].

Definition latte_recipe : value :=
  PDict [("color", PStr "white"); ("parts", PInt 1)].

Definition latte : value :=
  PDict [("title", PStr "Latte"); ("recipe", latte_recipe)].

End Demo.

(* ================================================================= *)
(** ** Lemmas on the collaborators *)

(** A request is authorized for a permission when the verifier accepts its
    headers and the gate finds the permission among the claims. *)
Definition authorized `{AuthService} (permission : string) (hs : Headers)
    (payload : Claims) : Prop :=
  claims_verifier hs = inr payload /\ permission_gate permission payload = inr tt.

(** The envelope of every error body. *)
Definition error_body (code : Z) (message : value) : Body :=
  Json (PDict [("success", PBool false);
               ("error", PInt code);
               ("message", message)]).

(** The exceptions an error handler can describe: an [abort] whose
    description is a dict with a string under ['message'] or a plain string,
    an [AuthError], or an [AttributeError]. *)
Definition described (e : exn) : Prop :=
  match e with
  | HTTPError err =>
      (exists m, description err = PDict [("message", PStr m)])
      \/ (exists s, description err = PStr s)
  | AuthErrorRaised _ | AttributeError _ => True
  | KeyError _ | TypeError | StoreException _ => False
  end.

(** The permission each rule of the URL map asks for, as its
    [@requires_auth] decorator names it; [None] for the public
    [GET /drinks] and where there is no rule. *)
Definition required_permission (request : Request) : option string :=
  match path request, method request with
  | drinks, POST => Some "post:drinks"
  | drinks_detail, GET => Some "get:drinks-detail"
  | drinks_id _, PATCH => Some "patch:drinks"
  | drinks_id _, DELETE => Some "delete:drinks"
  | _, _ => None
  end.

(** The success envelope: [{success: True, <key>: <payload>}]. *)
Definition success_body (key : string) (payload : value) : Body :=
  Json (PDict [("success", PBool true); (key, payload)]).

(** What a view run on [db] may end in: a 200 response in the success
    envelope, or an exception the error handlers can describe, raised with
    the table as it was; an [abort] is one of 404, 405 and 422. *)
Definition view_outcome (db : Store) (o : (exn + Response) * Store) : Prop :=
  match o with
  | (inr r, _) =>
      status r = 200 /\ exists key payload, body r = success_body key payload
  | (inl e, db') =>
      db' = db /\ described e
      /\ match e with
         | HTTPError err => code err = 404 \/ code err = 405 \/ code err = 422
         | _ => True
         end
  end.

(** The drink [update_drink] writes: the title replaced when the body's
    title is truthy, then the recipe replaced when the body's recipe is. *)
Definition patched (drink : Drink) (title recipe : value) : Drink :=
  let drink :=
    if truth title
    then mkDrink (id drink) title (Models.recipe drink)
    else drink in
  if truth recipe
  then mkDrink (id drink) (Models.title drink) (json_dumps recipe)
  else drink.

Ltac run_view :=
  unfold full_dispatch_request, dispatch_request, respond, create_drink,
    update_drink, delete_drinks, get_drinks, get_drink_detail, try_except,
    abort, raise, bind, ret, get, query_get, query_all, insert, update, delete.

Lemma requires_auth_authorized `{AuthService} {S A} permission hs payload
    (f : Claims -> M S A) :
  authorized permission hs payload ->
  requires_auth permission hs f = f payload.
Proof.
  intros [Hv Hg]. unfold requires_auth. now rewrite Hv, Hg.
Qed.

Lemma requires_auth_rejected `{AuthService} {S A} permission hs
    (f : Claims -> M S A) :
  (forall payload, ~ authorized permission hs payload) ->
  exists e, requires_auth permission hs f = raise (AuthErrorRaised e).
Proof.
  intros Hno. unfold requires_auth.
  destruct (claims_verifier hs) as [e | payload] eqn:Hv; [now exists e |].
  destruct (permission_gate permission payload) as [e | []] eqn:Hg;
    [now exists e |].
  exfalso. apply (Hno payload). now split.
Qed.

Lemma found_has_id drink_id (db : Store) d :
  find (has_id drink_id) db = Some d -> id d = Some drink_id.
Proof.
  intros Hf. apply find_some in Hf as [_ Hid].
  unfold has_id in Hid. destruct (id d) as [i |]; [| discriminate].
  apply Z.eqb_eq in Hid. now subst.
Qed.

Lemma same_row_has_id d drink_id r :
  id d = Some drink_id -> same_row d r = has_id drink_id r.
Proof. intros Hid. unfold same_row. now rewrite Hid. Qed.

Lemma find_deleted d drink_id (db : Store) :
  id d = Some drink_id ->
  find (has_id drink_id) (filter (fun r => negb (same_row d r)) db) = None.
Proof.
  intros Hid. induction db as [| r db IH]; simpl; [reflexivity |].
  rewrite (same_row_has_id _ _ _ Hid).
  destruct (has_id drink_id r) eqn:Hr; simpl; [exact IH |].
  now rewrite Hr.
Qed.

Lemma find_updated d d' drink_id (db : Store) :
  id d' = Some drink_id ->
  find (has_id drink_id) db = Some d ->
  find (has_id drink_id) (map (fun r => if same_row d' r then d' else r) db)
  = Some d'.
Proof.
  intros Hid. induction db as [| r db IH]; simpl; [discriminate |].
  rewrite (same_row_has_id _ _ _ Hid).
  destruct (has_id drink_id r) eqn:Hr.
  - intros _. unfold has_id at 1. rewrite Hid, Z.eqb_refl. reflexivity.
  - rewrite Hr. exact IH.
Qed.

Lemma lookup_nonempty key items v :
  lookup key items = Some v -> truth (PDict items) = true.
Proof. destruct items; [discriminate | reflexivity]. Qed.

(* ================================================================= *)
(** ** [get_error_message] *)

(** C10: [get_error_message error default_message] returns
    [error.description['message']] whenever the description is a dict that has
    the key ['message'], returns [default_message] whenever the description is
    a plain string (the [TypeError] branch), and raises [KeyError] (which
    nothing catches, so that the error handlers answer 500) whenever the
    description is a dict without the key. *)
Theorem get_error_message_cases (error : HTTPException) (default_message : string) :
  (forall items v,
      description error = PDict items -> lookup "message" items = Some v ->
      get_error_message error default_message = inr v)
  /\ (forall s,
      description error = PStr s ->
      get_error_message error default_message = inr (PStr default_message))
  /\ (forall items,
      description error = PDict items -> lookup "message" items = None ->
      get_error_message error default_message = inl (KeyError "message")
      /\ unprocessable error = inl (KeyError "message")
      /\ not_found error = inl (KeyError "message")).
Proof.
  unfold unprocessable, not_found, get_error_message, getitem.
  split; [| split].
  - intros items v Hd Hl. now rewrite Hd, Hl.
  - intros s Hd. now rewrite Hd.
  - intros items Hd Hl. now rewrite Hd, Hl.
Qed.

Lemma get_error_message_cases_witness :
  get_error_message
    (mkHTTPException 404 (PDict [("message", PStr "drinks not found")]))
    "resource not found" = inr (PStr "drinks not found")
  /\ get_error_message (mkHTTPException 422 (PStr (default_description 422)))
       "unprocessable" = inr (PStr "unprocessable")
  /\ get_error_message (mkHTTPException 422 (PDict [("reason", PStr "blank")]))
       "unprocessable" = inl (KeyError "message").
Proof.
  split; [| split].
  - apply (proj1 (get_error_message_cases
                    (mkHTTPException 404
                       (PDict [("message", PStr "drinks not found")]))
                    "resource not found")
             [("message", PStr "drinks not found")]); reflexivity.
  - apply (proj1 (proj2 (get_error_message_cases
                           (mkHTTPException 422 (PStr (default_description 422)))
                           "unprocessable"))
             (default_description 422)); reflexivity.
  - apply (proj2 (proj2 (get_error_message_cases
                           (mkHTTPException 422
                              (PDict [("reason", PStr "blank")]))
                           "unprocessable"))
             [("reason", PStr "blank")]); reflexivity.
Defined.

(* ================================================================= *)
(** ** Request bodies *)

(** C9: a [POST /drinks] or [PATCH /drinks/<id>] whose JSON body is falsy is
    rejected by its handler with 422 and the message ['invalid body JSON']
    before the store is touched: the handler is the [abort] itself, whatever
    the store holds and whatever its next write would do.  A missing body, a
    JSON [null] and the empty object are three such bodies. *)
Theorem falsy_body_rejected :
  (forall fault request payload drink_id (db : Store),
      truth (get_json request) = false ->
      create_drink fault request payload
      = abort 422 (Some (PDict [("message", PStr "invalid body JSON")]))
      /\ update_drink fault request payload drink_id
         = abort 422 (Some (PDict [("message", PStr "invalid body JSON")]))
      /\ respond (create_drink fault request payload) db
         = (mkResponse (error_body 422 (PStr "invalid body JSON")) 422, db)
      /\ respond (update_drink fault request payload drink_id) db
         = (mkResponse (error_body 422 (PStr "invalid body JSON")) 422, db))
  /\ (forall m p hs,
      truth (get_json (mkRequest m p hs None)) = false
      /\ truth (get_json (mkRequest m p hs (Some PNone))) = false
      /\ truth (get_json (mkRequest m p hs (Some (PDict [])))) = false).
Proof.
  split.
  - intros fault request payload drink_id db Hfalsy.
    assert (Hc : create_drink fault request payload
                 = abort 422 (Some (PDict [("message", PStr "invalid body JSON")])))
      by (unfold create_drink; now rewrite Hfalsy).
    assert (Hu : update_drink fault request payload drink_id
                 = abort 422 (Some (PDict [("message", PStr "invalid body JSON")])))
      by (unfold update_drink; now rewrite Hfalsy).
    rewrite Hc, Hu. repeat split; reflexivity.
  - intros m p hs. repeat split; reflexivity.
Qed.

Lemma falsy_body_rejected_witness :
  respond
    (create_drink None (mkRequest POST drinks (Demo.bearer "manager")
                          (Some (PDict []))) Demo.manager) Demo.menu
  = (mkResponse (error_body 422 (PStr "invalid body JSON")) 422, Demo.menu)
  /\ respond
       (update_drink None (mkRequest PATCH (drinks_id 1) (Demo.bearer "manager")
                             None) Demo.manager 1) Demo.menu
     = (mkResponse (error_body 422 (PStr "invalid body JSON")) 422, Demo.menu).
Proof.
  split.
  - apply (proj1 falsy_body_rejected None
             (mkRequest POST drinks (Demo.bearer "manager") (Some (PDict [])))
             Demo.manager 1 Demo.menu).
    reflexivity.
  - apply (proj1 falsy_body_rejected None
             (mkRequest PATCH (drinks_id 1) (Demo.bearer "manager") None)
             Demo.manager 1 Demo.menu).
    reflexivity.
Defined.

(* ================================================================= *)
(** ** Store failures *)

(** C7: when the store raises during a handler's write, the handler catches
    the exception: a failed insert becomes 404 ['failed to add a drink'], a
    failed update or delete becomes 422 ['unprocessable'].  The response is
    the same whatever the detail of the store's exception, and the table is
    left as it was. *)
Theorem store_exception_mapped detail request payload (db : Store) :
  (forall items new_drink new_recipe,
      get_json request = PDict items ->
      lookup "title" items = Some new_drink -> truth new_drink = true ->
      lookup "recipe" items = Some new_recipe -> truth new_recipe = true ->
      respond (create_drink (Some detail) request payload) db
      = (mkResponse (error_body 404 (PStr "failed to add a drink")) 404, db))
  /\ (forall drink_id items drink,
      get_json request = PDict items -> truth (PDict items) = true ->
      find (has_id drink_id) db = Some drink ->
      respond (update_drink (Some detail) request payload drink_id) db
      = (mkResponse (error_body 422 (PStr "unprocessable")) 422, db))
  /\ (forall drink_id drink,
      find (has_id drink_id) db = Some drink ->
      respond (delete_drinks (Some detail) payload drink_id) db
      = (mkResponse (error_body 422 (PStr "unprocessable")) 422, db)).
Proof.
  split; [| split].
  - intros items new_drink new_recipe Hbody Ht Htt Hr Hrt.
    run_view. rewrite Hbody, (lookup_nonempty _ _ _ Ht). cbn.
    unfold dict_get. rewrite Ht, Hr, Htt, Hrt. reflexivity.
  - intros drink_id items drink Hbody Htruth Hfound.
    run_view. rewrite Hbody, Htruth. cbn. rewrite Hfound. reflexivity.
  - intros drink_id drink Hfound.
    run_view. cbn. rewrite Hfound. reflexivity.
Qed.

Lemma store_exception_mapped_witness :
  respond
    (create_drink (Some "UNIQUE constraint failed: drink.title")
       (mkRequest POST drinks (Demo.bearer "manager") (Some Demo.latte))
       Demo.manager) Demo.menu
  = (mkResponse (error_body 404 (PStr "failed to add a drink")) 404, Demo.menu)
  /\ respond
       (update_drink (Some "database is locked")
          (mkRequest PATCH (drinks_id 2) (Demo.bearer "manager") (Some Demo.latte))
          Demo.manager 2) Demo.menu
     = (mkResponse (error_body 422 (PStr "unprocessable")) 422, Demo.menu)
  /\ respond (delete_drinks (Some "database is locked") Demo.manager 1) Demo.menu
     = (mkResponse (error_body 422 (PStr "unprocessable")) 422, Demo.menu).
Proof.
  split; [| split].
  - apply (proj1 (store_exception_mapped
                    "UNIQUE constraint failed: drink.title"
                    (mkRequest POST drinks (Demo.bearer "manager")
                       (Some Demo.latte))
                    Demo.manager Demo.menu)
             [("title", PStr "Latte"); ("recipe", Demo.latte_recipe)]
             (PStr "Latte") Demo.latte_recipe); reflexivity.
  - apply (proj1 (proj2 (store_exception_mapped "database is locked"
                           (mkRequest PATCH (drinks_id 2) (Demo.bearer "manager")
                              (Some Demo.latte))
                           Demo.manager Demo.menu))
             2 [("title", PStr "Latte"); ("recipe", Demo.latte_recipe)]
             Demo.mocha); reflexivity.
  - apply (proj2 (proj2 (store_exception_mapped "database is locked"
                           (mkRequest PATCH (drinks_id 2) (Demo.bearer "manager")
                              None)
                           Demo.manager Demo.menu))
             1 Demo.water); reflexivity.
Defined.

(* ================================================================= *)
(** ** [GET /drinks] *)

(** C4: every [GET /drinks] request, whatever its headers, is answered 200,
    and every entry of the [drinks] list is a dict with exactly the two keys
    [id] and [title]; there is no [recipe] in it. *)
Theorem get_drinks_short `{AuthService} fault request (db : Store) :
  method request = GET -> path request = drinks ->
  exists entries,
    full_dispatch_request fault request db
    = (mkResponse (Json (PDict [("success", PBool true);
                                ("drinks", PList entries)])) 200, db)
    /\ List.length entries = List.length db
    /\ Forall (fun entry =>
                 exists items,
                   entry = PDict items
                   /\ map fst items = ["id"; "title"]
                   /\ lookup "recipe" items = None) entries.
Proof.
  intros Hm Hp. exists (map short db). split; [| split].
  - run_view. now rewrite Hp, Hm.
  - apply length_map.
  - apply Forall_map, Forall_forall. intros d _.
    eexists. split; [reflexivity | split; reflexivity].
Qed.

Lemma get_drinks_short_witness :
  exists entries,
    @full_dispatch_request Demo.provider None
      (mkRequest GET drinks [] None) Demo.menu
    = (mkResponse (Json (PDict [("success", PBool true);
                                ("drinks", PList entries)])) 200, Demo.menu)
    /\ List.length entries = List.length Demo.menu
    /\ Forall (fun entry =>
                 exists items,
                   entry = PDict items
                   /\ map fst items = ["id"; "title"]
                   /\ lookup "recipe" items = None) entries.
Proof.
  apply (@get_drinks_short Demo.provider None (mkRequest GET drinks [] None)
           Demo.menu); reflexivity.
Defined.

(* ================================================================= *)
(** ** [POST /drinks] *)

Lemma create_drink_ok fault request payload (db : Store) items new_drink new_recipe :
  get_json request = PDict items ->
  lookup "title" items = Some new_drink -> truth new_drink = true ->
  lookup "recipe" items = Some new_recipe -> truth new_recipe = true ->
  create_drink fault request payload db
  = try_except
      (drink <- insert fault (mkDrink None new_drink (json_dumps new_recipe)) ;;
       ret (jsonify (PDict [("success", PBool true);
                            ("drinks", PList [long drink])])))
      (fun _ => abort 404 (Some (PDict [("message", PStr "failed to add a drink")])))
      db.
Proof.
  intros Hbody Ht Htt Hr Hrt. unfold create_drink, get, bind, ret.
  rewrite Hbody, (lookup_nonempty _ _ _ Ht). cbn.
  unfold dict_get. now rewrite Ht, Hr, Htt, Hrt.
Qed.

(** C5: a [POST /drinks] with the body
    [{"title": "Latte", "recipe": {"color": "white", "parts": 1}}] and a token
    valid for [post:drinks], when the store's insert succeeds, is answered 200
    with a [drinks] array of exactly one long-form record, whose title is the
    submitted title (and whose recipe is the submitted recipe); that record
    is the row added to the table. *)
Theorem create_latte `{AuthService} request payload (db : Store) :
  method request = POST -> path request = drinks ->
  authorized "post:drinks" (headers request) payload ->
  json request = Some Demo.latte ->
  full_dispatch_request None request db
  = (mkResponse
       (Json (PDict [("success", PBool true);
                     ("drinks",
                      PList [PDict [("id", PInt (next_id db));
                                    ("title", PStr "Latte");
                                    ("recipe", Demo.latte_recipe)]])]))
       200,
     (db ++ [mkDrink (Some (next_id db)) (PStr "Latte")
               (json_dumps Demo.latte_recipe)])%list).
Proof.
  intros Hm Hp Hauth Hbody.
  unfold full_dispatch_request, dispatch_request, respond.
  rewrite Hp, Hm, (requires_auth_authorized _ _ _ _ Hauth).
  rewrite (create_drink_ok None request payload db
             [("title", PStr "Latte"); ("recipe", Demo.latte_recipe)]
             (PStr "Latte") Demo.latte_recipe);
    try reflexivity.
  unfold get_json. now rewrite Hbody.
Qed.

Lemma create_latte_witness :
  @full_dispatch_request Demo.provider None
    (mkRequest POST drinks (Demo.bearer "manager") (Some Demo.latte)) Demo.menu
  = (mkResponse
       (Json (PDict [("success", PBool true);
                     ("drinks",
                      PList [PDict [("id", PInt 3);
                                    ("title", PStr "Latte");
                                    ("recipe", Demo.latte_recipe)]])]))
       200,
     [Demo.water; Demo.mocha;
      mkDrink (Some 3) (PStr "Latte") (json_dumps Demo.latte_recipe)]).
Proof.
  apply (@create_latte Demo.provider
           (mkRequest POST drinks (Demo.bearer "manager") (Some Demo.latte))
           Demo.manager Demo.menu);
    try reflexivity.
  split; reflexivity.
Defined.

(** C6, as amended: a [POST /drinks] with a token valid for [post:drinks] and
    a body whose title is the empty string is answered 422 with the message
    ['drink cannot be blank'], which contains the word [drink]; the store is
    not touched. *)
Theorem blank_title_rejected `{AuthService} fault request payload (db : Store) items :
  method request = POST -> path request = drinks ->
  authorized "post:drinks" (headers request) payload ->
  json request = Some (PDict items) ->
  lookup "title" items = Some (PStr EmptyString) ->
  full_dispatch_request fault request db
  = (mkResponse (error_body 422 (PStr "drink cannot be blank")) 422, db)
  /\ contains "drink" "drink cannot be blank" = true.
Proof.
  intros Hm Hp Hauth Hbody Ht. split; [| reflexivity].
  unfold full_dispatch_request, dispatch_request, respond.
  rewrite Hp, Hm, (requires_auth_authorized _ _ _ _ Hauth).
  unfold create_drink, get_json, get, bind, ret.
  rewrite Hbody, (lookup_nonempty _ _ _ Ht). cbn.
  unfold dict_get. rewrite Ht. reflexivity.
Qed.

Lemma blank_title_rejected_witness :
  @full_dispatch_request Demo.provider None
    (mkRequest POST drinks (Demo.bearer "manager")
       (Some (PDict [("title", PStr EmptyString); ("recipe", Demo.latte_recipe)])))
    Demo.menu
  = (mkResponse (error_body 422 (PStr "drink cannot be blank")) 422, Demo.menu)
  /\ contains "drink" "drink cannot be blank" = true.
Proof.
  apply (@blank_title_rejected Demo.provider None
           (mkRequest POST drinks (Demo.bearer "manager")
              (Some (PDict [("title", PStr EmptyString); ("recipe", Demo.latte_recipe)])))
           Demo.manager Demo.menu
           [("title", PStr EmptyString); ("recipe", Demo.latte_recipe)]);
    try reflexivity.
  split; reflexivity.
Defined.

(** C6, as stated, fails: the same body sent without an [Authorization]
    header never reaches the handler and is answered 401 by [auth_error]. *)
Lemma blank_title_without_token :
  @full_dispatch_request Demo.provider None
    (mkRequest POST drinks []
       (Some (PDict [("title", PStr EmptyString); ("recipe", Demo.latte_recipe)])))
    Demo.menu
  = (mkResponse
       (error_body 401
          (Demo.failure "authorization_header_missing"
                        "Authorization header is expected."))
       401,
     Demo.menu)
  /\ status (fst (@full_dispatch_request Demo.provider None
                    (mkRequest POST drinks []
                       (Some (PDict [("title", PStr EmptyString);
                                     ("recipe", Demo.latte_recipe)])))
                    Demo.menu)) <> 422.
Proof. split; [reflexivity | discriminate]. Qed.

(* ================================================================= *)
(** ** [DELETE /drinks/<id>] *)

(** C3, as amended: a [DELETE /drinks/<id>] with a token valid for
    [delete:drinks], on an id that a drink in the table has, when the
    store's delete does not raise, is answered 200 with
    [{success: true, deleted: id}], the id being that of the deleted row;
    the identical request sent again is answered 404, whatever the store
    would do with a write. *)
Theorem delete_then_not_found `{AuthService} request payload drink_id drink
    (db : Store) :
  method request = DELETE -> path request = drinks_id drink_id ->
  authorized "delete:drinks" (headers request) payload ->
  find (has_id drink_id) db = Some drink ->
  exists db',
    full_dispatch_request None request db
    = (mkResponse (Json (PDict [("success", PBool true);
                                ("deleted", PInt drink_id)])) 200, db')
    /\ id drink = Some drink_id
    /\ ~ In drink db'
    /\ forall fault,
        full_dispatch_request fault request db'
        = (mkResponse (error_body 404 (PStr "drinks not found")) 404, db').
Proof.
  intros Hm Hp Hauth Hfound.
  pose proof (found_has_id _ _ _ Hfound) as Hid.
  exists (filter (fun r => negb (same_row drink r)) db).
  unfold full_dispatch_request, dispatch_request, respond.
  rewrite Hp, Hm, (requires_auth_authorized _ _ _ _ Hauth).
  repeat split.
  - unfold delete_drinks, query_get, bind. rewrite Hfound. reflexivity.
  - exact Hid.
  - intros Hin. apply filter_In in Hin as [_ Hrow].
    rewrite (same_row_has_id _ _ _ Hid) in Hrow.
    unfold has_id in Hrow. now rewrite Hid, Z.eqb_refl in Hrow.
  - intros fault. rewrite (requires_auth_authorized _ _ _ _ Hauth).
    unfold delete_drinks, query_get, bind.
    rewrite (find_deleted _ _ _ Hid). reflexivity.
Qed.

Lemma delete_then_not_found_witness :
  exists db',
    @full_dispatch_request Demo.provider None
      (mkRequest DELETE (drinks_id 1) (Demo.bearer "manager") None) Demo.menu
    = (mkResponse (Json (PDict [("success", PBool true);
                                ("deleted", PInt 1)])) 200, db')
    /\ id Demo.water = Some 1
    /\ ~ In Demo.water db'
    /\ forall fault,
        @full_dispatch_request Demo.provider fault
          (mkRequest DELETE (drinks_id 1) (Demo.bearer "manager") None) db'
        = (mkResponse (error_body 404 (PStr "drinks not found")) 404, db').
Proof.
  apply (@delete_then_not_found Demo.provider
           (mkRequest DELETE (drinks_id 1) (Demo.bearer "manager") None)
           Demo.manager 1 Demo.water Demo.menu);
    try reflexivity.
  split; reflexivity.
Defined.

(** C3, as stated, fails: the token is valid and drink 1 exists, but the
    store raises on the delete, which the handler turns into 422. *)
Lemma delete_store_failure :
  authorized (H := Demo.provider) "delete:drinks" (Demo.bearer "manager")
    Demo.manager
  /\ find (has_id 1) Demo.menu = Some Demo.water
  /\ @full_dispatch_request Demo.provider (Some "database is locked")
       (mkRequest DELETE (drinks_id 1) (Demo.bearer "manager") None) Demo.menu
     = (mkResponse (error_body 422 (PStr "unprocessable")) 422, Demo.menu).
Proof. repeat split. Qed.

(* ================================================================= *)
(** ** [PATCH /drinks/<id>] *)

(** C8, as amended: a [PATCH /drinks/<id>] with a token valid for
    [patch:drinks], on an existing drink, whose JSON body is a non-empty
    object with neither a truthy title nor a truthy recipe, leaves the title
    and the recipe of the stored drink as they were; it is answered 200, with
    that drink in long form, when the store's update does not raise, and 422
    when it does. *)
Theorem patch_without_fields `{AuthService} fault request payload drink_id drink
    (db : Store) items :
  method request = PATCH -> path request = drinks_id drink_id ->
  authorized "patch:drinks" (headers request) payload ->
  json request = Some (PDict items) -> items <> [] ->
  truth (dict_get items "title") = false ->
  truth (dict_get items "recipe") = false ->
  find (has_id drink_id) db = Some drink ->
  exists db',
    full_dispatch_request fault request db
    = (match fault with
       | None =>
           mkResponse (Json (PDict [("success", PBool true);
                                    ("drinks", PList [long drink])])) 200
       | Some _ => mkResponse (error_body 422 (PStr "unprocessable")) 422
       end, db')
    /\ find (has_id drink_id) db' = Some drink.
Proof.
  intros Hm Hp Hauth Hbody Hne Ht Hr Hfound.
  pose proof (found_has_id _ _ _ Hfound) as Hid.
  unfold full_dispatch_request, dispatch_request, respond.
  rewrite Hp, Hm, (requires_auth_authorized _ _ _ _ Hauth).
  unfold update_drink, get_json, get, query_get, bind, ret, try_except, update.
  rewrite Hbody. destruct items as [| item items]; [congruence |].
  cbn [truth negb]. rewrite Hfound, Ht, Hr.
  destruct fault as [detail |]; eexists; (split; [reflexivity |]).
  - exact Hfound.
  - apply (find_updated drink drink drink_id db Hid Hfound).
Qed.

Lemma patch_without_fields_witness :
  exists db',
    @full_dispatch_request Demo.provider None
      (mkRequest PATCH (drinks_id 2) (Demo.bearer "manager")
         (Some (PDict [("title", PStr EmptyString); ("price", PInt 3)]))) Demo.menu
    = (mkResponse (Json (PDict [("success", PBool true);
                                ("drinks", PList [long Demo.mocha])])) 200, db')
    /\ find (has_id 2) db' = Some Demo.mocha.
Proof.
  apply (@patch_without_fields Demo.provider None
           (mkRequest PATCH (drinks_id 2) (Demo.bearer "manager")
              (Some (PDict [("title", PStr EmptyString); ("price", PInt 3)])))
           Demo.manager 2 Demo.mocha Demo.menu
           [("title", PStr EmptyString); ("price", PInt 3)]);
    try reflexivity.
  - split; reflexivity.
  - discriminate.
Defined.

(** C8, as stated, fails twice over: such a request on an existing drink is
    answered 401 when it carries no token, and 422 when its token is valid but
    the store raises on the update. *)
Lemma patch_without_fields_not_200 :
  find (has_id 2) Demo.menu = Some Demo.mocha
  /\ @full_dispatch_request Demo.provider None
       (mkRequest PATCH (drinks_id 2) []
          (Some (PDict [("title", PStr EmptyString); ("price", PInt 3)]))) Demo.menu
     = (mkResponse
          (error_body 401
             (Demo.failure "authorization_header_missing"
                           "Authorization header is expected."))
          401,
        Demo.menu)
  /\ @full_dispatch_request Demo.provider (Some "database is locked")
       (mkRequest PATCH (drinks_id 2) (Demo.bearer "manager")
          (Some (PDict [("title", PStr EmptyString); ("price", PInt 3)]))) Demo.menu
     = (mkResponse (error_body 422 (PStr "unprocessable")) 422, Demo.menu).
Proof. repeat split. Qed.

(* ================================================================= *)
(** ** Error responses *)

(** What the views raise: an [abort] whose description is a dict with a
    string under ['message'] or the class's own string, an [AuthError] from
    the decorator, or the [AttributeError] of a body that is no dict. *)
Lemma create_drink_described fault request payload (db : Store) :
  match fst (create_drink fault request payload db) with
  | inr r => status r = 200
  | inl e => described e
  end.
Proof.
  unfold create_drink, get, try_except, abort, raise, bind, ret, insert.
  destruct (get_json request) as [| b | n | s | l | items]; simpl;
    try (destruct b); try (destruct (negb (n =? 0)));
    try (destruct (negb (s =? EmptyString)%string)); try (destruct l);
    try (destruct items); simpl; eauto.
  destruct (truth (dict_get _ "title")); simpl; eauto.
  destruct (truth (dict_get _ "recipe")); simpl; eauto.
  destruct fault; simpl; eauto.
Qed.

Lemma update_drink_described fault request payload drink_id (db : Store) :
  match fst (update_drink fault request payload drink_id db) with
  | inr r => status r = 200
  | inl e => described e
  end.
Proof.
  unfold update_drink, get, try_except, abort, raise, bind, ret, update,
    query_get.
  destruct (get_json request) as [| b | n | s | l | items]; simpl;
    try (destruct b); try (destruct (negb (n =? 0)));
    try (destruct (negb (s =? EmptyString)%string)); try (destruct l);
    try (destruct items); simpl; eauto.
  all: destruct (find (has_id drink_id) db) as [drink |]; simpl; eauto.
  destruct fault; simpl; eauto.
Qed.

Lemma delete_drinks_described fault payload drink_id (db : Store) :
  match fst (delete_drinks fault payload drink_id db) with
  | inr r => status r = 200
  | inl e => described e
  end.
Proof.
  unfold delete_drinks, try_except, abort, raise, bind, ret, delete, query_get.
  destruct (find (has_id drink_id) db) as [drink |]; simpl; eauto.
  destruct fault; simpl; eauto.
Qed.

Lemma requires_auth_described `{AuthService} permission hs
    (view : Claims -> M Store Response) (db : Store) :
  (forall payload,
      match fst (view payload db) with
      | inr r => status r = 200
      | inl e => described e
      end) ->
  match fst (requires_auth permission hs view db) with
  | inr r => status r = 200
  | inl e => described e
  end.
Proof.
  intros Hview. unfold requires_auth.
  destruct (claims_verifier hs) as [e | payload]; [exact I |].
  destruct (permission_gate permission payload) as [e | []]; [exact I |].
  apply Hview.
Qed.

(** What the views raise: an [abort] whose description is a dict with a
    string under ['message'] or the class's own string, an [AuthError] from
    the decorator, or the [AttributeError] of a body that is no dict. *)
Lemma dispatch_request_described `{AuthService} fault request (db : Store) :
  match fst (dispatch_request fault request db) with
  | inr r => status r = 200
  | inl e => described e
  end.
Proof.
  unfold dispatch_request.
  destruct (path request), (method request);
    try (apply requires_auth_described; intros payload; cbv beta);
    first [ apply create_drink_described
          | apply update_drink_described
          | apply delete_drinks_described
          | simpl; eauto ].
Qed.

Lemma handled_envelope e :
  described e ->
  status (handle_user_exception e) = 404 \/ status (handle_user_exception e) = 422 ->
  exists message,
    body (handle_user_exception e)
    = error_body (status (handle_user_exception e)) (PStr message).
Proof.
  destruct e as [err | e | key | | attr | detail]; simpl;
    try (intros []; fail); try (intros _ [Hs | Hs]; discriminate).
  unfold unprocessable, not_found, get_error_message, getitem.
  intros [[m Hd] | [s Hd]]; rewrite Hd; simpl;
    (destruct (code err =? 422) eqn:H422;
     [| destruct (code err =? 404) eqn:H404]); simpl;
    try (intros _; eexists; reflexivity);
    intros [Hs | Hs]; rewrite Hs in *; discriminate.
Qed.

(** C2, as amended: every 404 and every 422 response of the service has the
    body [{success: false, error: <status>, message: <string>}], its [error]
    being the HTTP status of the response; the response to an [AuthError] has
    the body [{success: false, error: e.status_code, message: e.error}], whose
    message is the failure's own payload (an error code with its description)
    rather than a string. *)
Theorem error_envelope `{AuthService} fault request (db : Store) :
  (status (fst (full_dispatch_request fault request db)) = 404
   \/ status (fst (full_dispatch_request fault request db)) = 422 ->
   exists message,
     body (fst (full_dispatch_request fault request db))
     = error_body (status (fst (full_dispatch_request fault request db)))
         (PStr message))
  /\ (forall e,
      fst (dispatch_request fault request db) = inl (AuthErrorRaised e) ->
      body (fst (full_dispatch_request fault request db))
      = error_body (status_code e) (error e)).
Proof.
  unfold full_dispatch_request, respond.
  pose proof (dispatch_request_described fault request db) as Hd.
  destruct (dispatch_request fault request db) as [[e | r] db']; simpl in *.
  - split; [now apply handled_envelope |].
    intros e' He. injection He as ->. reflexivity.
  - split; [| discriminate].
    rewrite Hd. intros [Hs | Hs]; discriminate.
Qed.

Lemma error_envelope_witness :
  (exists message,
      body (fst (@full_dispatch_request Demo.provider None
                   (mkRequest DELETE (drinks_id 7) (Demo.bearer "manager") None)
                   Demo.menu))
      = error_body 404 (PStr message))
  /\ body (fst (@full_dispatch_request Demo.provider None
                  (mkRequest GET drinks_detail (Demo.bearer "trainee") None)
                  Demo.menu))
     = error_body 400 (Demo.failure "invalid_claims"
                         "Permissions not included in JWT.").
Proof.
  split.
  - apply (proj1 (@error_envelope Demo.provider None
                    (mkRequest DELETE (drinks_id 7) (Demo.bearer "manager") None)
                    Demo.menu)).
    left. reflexivity.
  - apply (proj2 (@error_envelope Demo.provider None
                    (mkRequest GET drinks_detail (Demo.bearer "trainee") None)
                    Demo.menu)
             (mkAuthError (Demo.failure "invalid_claims"
                             "Permissions not included in JWT.") 400)).
    reflexivity.
Defined.

(** C2, as stated, fails on an [AuthError]: a [GET /drinks-detail] without an
    [Authorization] header is answered with the failure's payload, a dict,
    under [message]; no string makes the body the claimed envelope. *)
Lemma auth_error_message_not_a_string :
  body (fst (@full_dispatch_request Demo.provider None
               (mkRequest GET drinks_detail [] None) Demo.menu))
  = error_body 401
      (PDict [("code", PStr "authorization_header_missing");
              ("description", PStr "Authorization header is expected.")])
  /\ forall message,
      body (fst (@full_dispatch_request Demo.provider None
                   (mkRequest GET drinks_detail [] None) Demo.menu))
      <> error_body
           (status (fst (@full_dispatch_request Demo.provider None
                           (mkRequest GET drinks_detail [] None) Demo.menu)))
           (PStr message).
Proof. split; [reflexivity | intros message; discriminate]. Qed.

(* ================================================================= *)
(** ** The status of an [AuthError] response *)

Lemma auth_error_status e : status (auth_error e) = 401.
Proof. reflexivity. Qed.

(** Whatever the decorator raises on a protected route is answered by
    [auth_error], with status 401 and the failure's own status code in the
    body only. *)
Lemma auth_failure_response `{AuthService} fault request (db : Store) e :
  fst (dispatch_request fault request db) = inl (AuthErrorRaised e) ->
  fst (full_dispatch_request fault request db)
  = mkResponse (error_body (status_code e) (error e)) 401.
Proof.
  unfold full_dispatch_request, respond.
  destruct (dispatch_request fault request db) as [[e' | r] db']; simpl;
    [| discriminate].
  intros He. injection He as ->. reflexivity.
Qed.

(** C1 fails on the code: a [GET /drinks-detail] whose token carries no
    permissions entry raises [PermissionsMissing], an [AuthError] with status
    code 400, and the response has HTTP status 401, not 400; the 400 only
    shows in the body. *)
Theorem permissions_missing_answered_401 :
  fst (@dispatch_request Demo.provider None
         (mkRequest GET drinks_detail (Demo.bearer "trainee") None) Demo.menu)
  = inl (AuthErrorRaised
           (mkAuthError (Demo.failure "invalid_claims"
                           "Permissions not included in JWT.") 400))
  /\ fst (@full_dispatch_request Demo.provider None
            (mkRequest GET drinks_detail (Demo.bearer "trainee") None) Demo.menu)
     = mkResponse
         (error_body 400 (Demo.failure "invalid_claims"
                            "Permissions not included in JWT."))
         401.
Proof. split; reflexivity. Qed.

(* ================================================================= *)
(** ** What every request ends in *)

Lemma create_drink_outcome fault request payload (db : Store) :
  view_outcome db (create_drink fault request payload db).
Proof.
  unfold view_outcome, create_drink, get, try_except, abort, raise, bind, ret,
    insert, success_body.
  destruct (get_json request) as [| [] | n | s | [| ? ?] | [| ? ?]]; simpl;
    try (destruct (negb (n =? 0))); try (destruct (negb (s =? EmptyString)%string));
    simpl; eauto 8.
  destruct (truth (dict_get _ "title")); simpl; eauto 8.
  destruct (truth (dict_get _ "recipe")); simpl; eauto 8.
  destruct fault; simpl; eauto 8.
Qed.

Lemma update_drink_outcome fault request payload drink_id (db : Store) :
  view_outcome db (update_drink fault request payload drink_id db).
Proof.
  unfold view_outcome, update_drink, get, try_except, abort, raise, bind, ret,
    update, query_get, success_body.
  destruct (get_json request) as [| [] | n | s | [| ? ?] | [| ? ?]]; simpl;
    try (destruct (negb (n =? 0))); try (destruct (negb (s =? EmptyString)%string));
    simpl; eauto 8.
  all: destruct (find (has_id drink_id) db) as [drink |]; simpl; eauto 8.
  destruct fault; simpl; eauto 8.
Qed.

Lemma delete_drinks_outcome fault payload drink_id (db : Store) :
  view_outcome db (delete_drinks fault payload drink_id db).
Proof.
  unfold view_outcome, delete_drinks, try_except, abort, raise, bind, ret,
    delete, query_get, success_body.
  destruct (find (has_id drink_id) db) as [drink |]; simpl; eauto 8.
  destruct fault; simpl; eauto 8.
Qed.

Lemma requires_auth_outcome `{AuthService} permission hs
    (view : Claims -> M Store Response) (db : Store) :
  (forall payload, view_outcome db (view payload db)) ->
  view_outcome db (requires_auth permission hs view db).
Proof.
  intros Hview. unfold requires_auth.
  destruct (claims_verifier hs) as [e | payload]; [simpl; auto |].
  destruct (permission_gate permission payload) as [e | []]; [simpl; auto |].
  apply Hview.
Qed.

Lemma dispatch_request_outcome `{AuthService} fault request (db : Store) :
  view_outcome db (dispatch_request fault request db).
Proof.
  unfold dispatch_request.
  destruct (path request), (method request);
    try (apply requires_auth_outcome; intros payload; cbv beta);
    first [ apply create_drink_outcome
          | apply update_drink_outcome
          | apply delete_drinks_outcome
          | unfold view_outcome, success_body; simpl; eauto 8 ].
Qed.





(** X3: a request that is not answered 200 leaves the table exactly as it
    was: validation failures, missing ids, authorization failures and store
    exceptions change nothing. *)
Theorem failed_request_keeps_store `{AuthService} fault request (db : Store) :
  status (fst (full_dispatch_request fault request db)) <> 200 ->
  snd (full_dispatch_request fault request db) = db.
Proof.
  unfold full_dispatch_request, respond.
  pose proof (dispatch_request_outcome fault request db) as Ho.
  destruct (dispatch_request fault request db) as [[e | r] db']; simpl in *.
  - intros _. apply Ho.
  - intros Hs. destruct Ho as [H200 _]. contradiction.
Qed.

Lemma failed_request_keeps_store_witness :
  snd (@full_dispatch_request Demo.provider (Some "database is locked")
         (mkRequest PATCH (drinks_id 1) (Demo.bearer "manager")
            (Some Demo.latte)) Demo.menu)
  = Demo.menu.
Proof.
  apply (@failed_request_keeps_store Demo.provider (Some "database is locked")
           (mkRequest PATCH (drinks_id 1) (Demo.bearer "manager")
              (Some Demo.latte)) Demo.menu).
  discriminate.
Defined.

(** X4: a [GET] request never changes the table, so the same [GET] sent
    again is answered identically. *)
Theorem get_is_read_only `{AuthService} fault fault' request (db : Store) :
  method request = GET ->
  snd (full_dispatch_request fault request db) = db
  /\ full_dispatch_request fault' request
       (snd (full_dispatch_request fault request db))
     = full_dispatch_request fault request db.
Proof.
  intros Hm.
  assert (Hro : forall f, full_dispatch_request f request db
                          = (fst (full_dispatch_request fault request db), db)).
  { intros f. unfold full_dispatch_request, dispatch_request, respond.
    rewrite Hm. destruct (path request); try reflexivity.
    unfold requires_auth.
    destruct (claims_verifier (headers request)) as [e | payload];
      [reflexivity |].
    destruct (permission_gate "get:drinks-detail" payload) as [e | []];
      reflexivity. }
  rewrite (Hro fault). simpl. split; [reflexivity |]. apply Hro.
Qed.

Lemma get_is_read_only_witness :
  snd (@full_dispatch_request Demo.provider None
         (mkRequest GET drinks_detail (Demo.bearer "barista") None) Demo.menu)
  = Demo.menu
  /\ @full_dispatch_request Demo.provider (Some "database is locked")
       (mkRequest GET drinks_detail (Demo.bearer "barista") None)
       (snd (@full_dispatch_request Demo.provider None
               (mkRequest GET drinks_detail (Demo.bearer "barista") None)
               Demo.menu))
     = @full_dispatch_request Demo.provider None
         (mkRequest GET drinks_detail (Demo.bearer "barista") None) Demo.menu.
Proof.
  apply (@get_is_read_only Demo.provider None (Some "database is locked")
           (mkRequest GET drinks_detail (Demo.bearer "barista") None)
           Demo.menu).
  reflexivity.
Defined.

(* ================================================================= *)
(** ** Authorization comes first *)

Lemma requires_auth_raises `{AuthService} permission hs :
  (forall payload, ~ authorized permission hs payload) ->
  exists e, forall (A : Type) (f : Claims -> M Store A),
      requires_auth permission hs f = raise (AuthErrorRaised e).
Proof.
  intros Hno. unfold requires_auth.
  destruct (claims_verifier hs) as [e | payload] eqn:Hv; [now exists e |].
  destruct (permission_gate permission payload) as [e | []] eqn:Hg;
    [now exists e |].
  exfalso. apply (Hno payload). now split.
Qed.

(** X5: on the four protected routes a request that is not authorized for
    the route's permission is answered by [auth_error] alone: the response
    is fixed by the headers, whatever the body, the table and the store's
    behaviour, and the table is not touched.  Nothing about the body's
    validity or the existence of an id shows through. *)
Theorem unauthorized_is_rejected `{AuthService} request permission :
  required_permission request = Some permission ->
  (forall payload, ~ authorized permission (headers request) payload) ->
  exists e,
    forall fault body (db : Store),
      full_dispatch_request fault
        (mkRequest (method request) (path request) (headers request) body) db
      = (auth_error e, db).
Proof.
  intros Hperm Hno.
  destruct (requires_auth_raises permission (headers request) Hno) as [e He].
  exists e. intros fault body db.
  unfold required_permission in Hperm.
  unfold full_dispatch_request, dispatch_request, respond. simpl.
  destruct (path request), (method request); try discriminate;
    injection Hperm as <-; now rewrite He.
Qed.

Lemma unauthorized_is_rejected_witness :
  exists e,
    forall fault body (db : Store),
      @full_dispatch_request Demo.provider fault
        (mkRequest DELETE (drinks_id 1) (Demo.bearer "barista") body) db
      = (auth_error e, db).
Proof.
  apply (@unauthorized_is_rejected Demo.provider
           (mkRequest DELETE (drinks_id 1) (Demo.bearer "barista") None)
           "delete:drinks").
  - reflexivity.
  - intros payload [Hv Hg]. injection Hv as <-. discriminate.
Defined.

(* ================================================================= *)
(** ** More of [POST /drinks] *)

(** X6: [create_drink] validates the title before the recipe.  With a valid
    token and a non-empty JSON object, a title that is missing or falsy is
    answered 422 ['drink cannot be blank'] whatever the recipe; a truthy
    title with a missing or falsy recipe is answered 422
    ['recipe cannot be blank'].  Neither touches the store. *)
Theorem create_drink_validation `{AuthService} fault request payload
    (db : Store) items :
  method request = POST -> path request = drinks ->
  authorized "post:drinks" (headers request) payload ->
  json request = Some (PDict items) -> items <> [] ->
  (truth (dict_get items "title") = false ->
   full_dispatch_request fault request db
   = (mkResponse (error_body 422 (PStr "drink cannot be blank")) 422, db))
  /\ (truth (dict_get items "title") = true ->
      truth (dict_get items "recipe") = false ->
      full_dispatch_request fault request db
      = (mkResponse (error_body 422 (PStr "recipe cannot be blank")) 422, db)).
Proof.
  intros Hm Hp Hauth Hbody Hne.
  unfold full_dispatch_request, dispatch_request, respond.
  rewrite Hp, Hm, (requires_auth_authorized _ _ _ _ Hauth).
  unfold create_drink, get_json, get, bind, ret.
  rewrite Hbody. destruct items as [| item items]; [congruence |].
  cbn [truth negb]. split.
  - intros Ht. rewrite Ht. reflexivity.
  - intros Ht Hr. rewrite Ht, Hr. reflexivity.
Qed.

Lemma create_drink_validation_witness :
  @full_dispatch_request Demo.provider None
    (mkRequest POST drinks (Demo.bearer "manager")
       (Some (PDict [("recipe", Demo.latte_recipe)]))) Demo.menu
  = (mkResponse (error_body 422 (PStr "drink cannot be blank")) 422, Demo.menu)
  /\ @full_dispatch_request Demo.provider None
       (mkRequest POST drinks (Demo.bearer "manager")
          (Some (PDict [("title", PStr "Latte"); ("recipe", PList [])])))
       Demo.menu
     = (mkResponse (error_body 422 (PStr "recipe cannot be blank")) 422,
        Demo.menu).
Proof.
  split.
  - apply (proj1 (@create_drink_validation Demo.provider None
                    (mkRequest POST drinks (Demo.bearer "manager")
                       (Some (PDict [("recipe", Demo.latte_recipe)])))
                    Demo.manager Demo.menu [("recipe", Demo.latte_recipe)]
                    eq_refl eq_refl (conj eq_refl eq_refl) eq_refl
                    ltac:(discriminate))).
    reflexivity.
  - apply (proj2 (@create_drink_validation Demo.provider None
                    (mkRequest POST drinks (Demo.bearer "manager")
                       (Some (PDict [("title", PStr "Latte");
                                     ("recipe", PList [])])))
                    Demo.manager Demo.menu
                    [("title", PStr "Latte"); ("recipe", PList [])]
                    eq_refl eq_refl (conj eq_refl eq_refl) eq_refl
                    ltac:(discriminate))); reflexivity.
Defined.

(** X7: a truthy JSON body that is not an object (a list, a string, a
    number, [true]) passes the [if not body] test and then has no [get]: the
    [AttributeError] is caught by no handler and the response is the
    framework's 500 page, not an error envelope.  [POST /drinks] does so on
    every such body, [PATCH /drinks/<id>] when the drink exists.  The store
    is not touched. *)
Theorem non_object_body_is_500 `{AuthService} fault request payload (db : Store) :
  truth (get_json request) = true ->
  (forall items, get_json request <> PDict items) ->
  (method request = POST -> path request = drinks ->
   authorized "post:drinks" (headers request) payload ->
   full_dispatch_request fault request db = (mkResponse Page 500, db))
  /\ (forall drink_id drink,
      method request = PATCH -> path request = drinks_id drink_id ->
      authorized "patch:drinks" (headers request) payload ->
      find (has_id drink_id) db = Some drink ->
      full_dispatch_request fault request db = (mkResponse Page 500, db)).
Proof.
  intros Htruth Hnot. split.
  - intros Hm Hp Hauth.
    unfold full_dispatch_request, dispatch_request, respond.
    rewrite Hp, Hm, (requires_auth_authorized _ _ _ _ Hauth).
    unfold create_drink, get, bind, raise. rewrite Htruth.
    destruct (get_json request) as [| b | n | s | l | items];
      try reflexivity.
    now destruct (Hnot items).
  - intros drink_id drink Hm Hp Hauth Hfound.
    unfold full_dispatch_request, dispatch_request, respond.
    rewrite Hp, Hm, (requires_auth_authorized _ _ _ _ Hauth).
    unfold update_drink, get, bind, raise, query_get. rewrite Htruth.
    cbn [negb]. rewrite Hfound.
    destruct (get_json request) as [| b | n | s | l | items];
      try reflexivity.
    now destruct (Hnot items).
Qed.

Lemma non_object_body_is_500_witness :
  @full_dispatch_request Demo.provider None
    (mkRequest POST drinks (Demo.bearer "manager")
       (Some (PList [Demo.latte]))) Demo.menu
  = (mkResponse Page 500, Demo.menu)
  /\ @full_dispatch_request Demo.provider None
       (mkRequest PATCH (drinks_id 2) (Demo.bearer "manager")
          (Some (PStr "Mocha"))) Demo.menu
     = (mkResponse Page 500, Demo.menu).
Proof.
  split.
  - apply (proj1 (@non_object_body_is_500 Demo.provider None
                    (mkRequest POST drinks (Demo.bearer "manager")
                       (Some (PList [Demo.latte])))
                    Demo.manager Demo.menu eq_refl
                    ltac:(discriminate)));
      try reflexivity.
    split; reflexivity.
  - apply (proj2 (@non_object_body_is_500 Demo.provider None
                    (mkRequest PATCH (drinks_id 2) (Demo.bearer "manager")
                       (Some (PStr "Mocha")))
                    Demo.manager Demo.menu eq_refl
                    ltac:(discriminate))
             2 Demo.mocha);
      try reflexivity.
    split; reflexivity.
Defined.

(* ================================================================= *)
(** ** Ids that are not in the table *)

(** X8: with a valid token, a [PATCH /drinks/<id>] with a truthy body and a
    [DELETE /drinks/<id>] on an id no drink has are answered 404
    ['drinks not found'], whatever the body holds and whatever the store
    would do with a write; the table is not touched. *)
Theorem unknown_id_not_found `{AuthService} fault request payload drink_id
    (db : Store) :
  path request = drinks_id drink_id ->
  find (has_id drink_id) db = None ->
  (method request = PATCH ->
   authorized "patch:drinks" (headers request) payload ->
   truth (get_json request) = true ->
   full_dispatch_request fault request db
   = (mkResponse (error_body 404 (PStr "drinks not found")) 404, db))
  /\ (method request = DELETE ->
      authorized "delete:drinks" (headers request) payload ->
      full_dispatch_request fault request db
      = (mkResponse (error_body 404 (PStr "drinks not found")) 404, db)).
Proof.
  intros Hp Hnone. split.
  - intros Hm Hauth Htruth.
    unfold full_dispatch_request, dispatch_request, respond.
    rewrite Hp, Hm, (requires_auth_authorized _ _ _ _ Hauth).
    unfold update_drink, query_get, bind. rewrite Htruth. cbn [negb].
    rewrite Hnone. reflexivity.
  - intros Hm Hauth.
    unfold full_dispatch_request, dispatch_request, respond.
    rewrite Hp, Hm, (requires_auth_authorized _ _ _ _ Hauth).
    unfold delete_drinks, query_get, bind. rewrite Hnone. reflexivity.
Qed.

Lemma unknown_id_not_found_witness :
  @full_dispatch_request Demo.provider None
    (mkRequest PATCH (drinks_id 999999) (Demo.bearer "manager")
       (Some Demo.latte)) Demo.menu
  = (mkResponse (error_body 404 (PStr "drinks not found")) 404, Demo.menu)
  /\ @full_dispatch_request Demo.provider None
       (mkRequest DELETE (drinks_id 999999) (Demo.bearer "manager") None)
       Demo.menu
     = (mkResponse (error_body 404 (PStr "drinks not found")) 404, Demo.menu).
Proof.
  split.
  - apply (proj1 (@unknown_id_not_found Demo.provider None
                    (mkRequest PATCH (drinks_id 999999) (Demo.bearer "manager")
                       (Some Demo.latte))
                    Demo.manager 999999 Demo.menu eq_refl eq_refl));
      try reflexivity.
    split; reflexivity.
  - apply (proj2 (@unknown_id_not_found Demo.provider None
                    (mkRequest DELETE (drinks_id 999999) (Demo.bearer "manager")
                       None)
                    Demo.manager 999999 Demo.menu eq_refl eq_refl));
      try reflexivity.
    split; reflexivity.
Defined.

(* ================================================================= *)
(** ** More of [PATCH /drinks/<id>] *)

(** X9: a [PATCH /drinks/<id>] with a valid token, a non-empty JSON object
    and an update that commits replaces the title when the body's title is
    truthy and the recipe when the body's recipe is truthy, each
    independently of the other, and keeps the id; the response is 200 with
    the updated drink in long form as the only entry, and that drink is what
    the id finds afterwards. *)
Theorem patch_applies_fields `{AuthService} request payload drink_id drink
    (db : Store) items :
  method request = PATCH -> path request = drinks_id drink_id ->
  authorized "patch:drinks" (headers request) payload ->
  json request = Some (PDict items) -> items <> [] ->
  find (has_id drink_id) db = Some drink ->
  exists drink' db',
    full_dispatch_request None request db
    = (mkResponse (success_body "drinks" (PList [long drink'])) 200, db')
    /\ find (has_id drink_id) db' = Some drink'
    /\ id drink' = Some drink_id
    /\ title drink'
       = (if truth (dict_get items "title")
          then dict_get items "title" else title drink)
    /\ recipe drink'
       = (if truth (dict_get items "recipe")
          then json_dumps (dict_get items "recipe") else recipe drink).
Proof.
  intros Hm Hp Hauth Hbody Hne Hfound.
  pose proof (found_has_id _ _ _ Hfound) as Hid.
  unfold full_dispatch_request, dispatch_request, respond.
  rewrite Hp, Hm, (requires_auth_authorized _ _ _ _ Hauth).
  unfold update_drink, get_json, get, query_get, bind, ret, try_except, update.
  rewrite Hbody. destruct items as [| item items]; [congruence |].
  cbn [truth negb]. rewrite Hfound.
  do 2 eexists. split; [reflexivity |].
  assert (Hid' :
    id (if truth (dict_get (item :: items) "recipe")
        then mkDrink
               (id (if truth (dict_get (item :: items) "title")
                    then mkDrink (id drink) (dict_get (item :: items) "title")
                           (recipe drink)
                    else drink))
               (title (if truth (dict_get (item :: items) "title")
                       then mkDrink (id drink) (dict_get (item :: items) "title")
                              (recipe drink)
                       else drink))
               (json_dumps (dict_get (item :: items) "recipe"))
        else if truth (dict_get (item :: items) "title")
             then mkDrink (id drink) (dict_get (item :: items) "title")
                    (recipe drink)
             else drink) = Some drink_id)
    by (destruct (truth (dict_get _ "recipe")), (truth (dict_get _ "title"));
        exact Hid).
  split; [apply (find_updated drink _ drink_id db Hid' Hfound) |].
  split; [exact Hid' |].
  destruct (truth (dict_get _ "recipe")), (truth (dict_get _ "title"));
    split; reflexivity.
Qed.

Lemma patch_applies_fields_witness :
  exists drink' db',
    @full_dispatch_request Demo.provider None
      (mkRequest PATCH (drinks_id 2) (Demo.bearer "manager")
         (Some (PDict [("title", PStr "Mocha Grande")]))) Demo.menu
    = (mkResponse (success_body "drinks" (PList [long drink'])) 200, db')
    /\ find (has_id 2) db' = Some drink'
    /\ id drink' = Some 2
    /\ title drink' = PStr "Mocha Grande"
    /\ recipe drink' = recipe Demo.mocha.
Proof.
  apply (@patch_applies_fields Demo.provider
           (mkRequest PATCH (drinks_id 2) (Demo.bearer "manager")
              (Some (PDict [("title", PStr "Mocha Grande")])))
           Demo.manager 2 Demo.mocha Demo.menu
           [("title", PStr "Mocha Grande")]);
    try reflexivity.
  - split; reflexivity.
  - discriminate.
Defined.

(* ================================================================= *)
(** ** [GET /drinks-detail] *)

(** X10: a [GET /drinks-detail] with a token valid for [get:drinks-detail]
    is answered 200 with one long-form entry per drink of the table, in the
    table's order, each a dict with exactly the keys [id], [title] and
    [recipe]; the table is not touched. *)
Theorem get_drink_detail_long `{AuthService} fault request payload (db : Store) :
  method request = GET -> path request = drinks_detail ->
  authorized "get:drinks-detail" (headers request) payload ->
  full_dispatch_request fault request db
  = (mkResponse (success_body "drinks" (PList (map long db))) 200, db)
  /\ Forall2 (fun drink entry =>
                exists items,
                  entry = PDict items
                  /\ map fst items = ["id"; "title"; "recipe"]
                  /\ lookup "title" items = Some (title drink)
                  /\ lookup "recipe" items = Some (json_loads (recipe drink)))
       db (map long db).
Proof.
  intros Hm Hp Hauth. split.
  - unfold full_dispatch_request, dispatch_request, respond.
    rewrite Hp, Hm, (requires_auth_authorized _ _ _ _ Hauth). reflexivity.
  - induction db as [| d db IH]; simpl; constructor; [| exact IH].
    eexists. repeat split; reflexivity.
Qed.

Lemma get_drink_detail_long_witness :
  @full_dispatch_request Demo.provider None
    (mkRequest GET drinks_detail (Demo.bearer "barista") None) Demo.menu
  = (mkResponse (success_body "drinks" (PList (map long Demo.menu))) 200,
     Demo.menu)
  /\ Forall2 (fun drink entry =>
                exists items,
                  entry = PDict items
                  /\ map fst items = ["id"; "title"; "recipe"]
                  /\ lookup "title" items = Some (title drink)
                  /\ lookup "recipe" items = Some (json_loads (recipe drink)))
       Demo.menu (map long Demo.menu).
Proof.
  apply (@get_drink_detail_long Demo.provider None
           (mkRequest GET drinks_detail (Demo.bearer "barista") None)
           (mkClaims (Some ["get:drinks-detail"]) []) Demo.menu);
    try reflexivity.
  split; reflexivity.
Defined.

(* ================================================================= *)
(** ** The messages of the error handlers *)

(** X11: [unprocessable] and [not_found] answer with their own number, 422
    and 404, whatever the code of the error they are given.  The message is
    [description['message']] as it is, of whatever type, when the description
    is a dict with that key, and the default (['unprocessable'],
    ['resource not found']) whenever the description is not a dict: a string,
    [None], a number or a list.  So a URL that matches no rule is answered
    404 ['resource not found'], without authentication. *)
Theorem error_handler_messages (error : HTTPException) :
  (forall items v,
      description error = PDict items -> lookup "message" items = Some v ->
      unprocessable error = inr (mkResponse (error_body 422 v) 422)
      /\ not_found error = inr (mkResponse (error_body 404 v) 404))
  /\ ((forall items, description error <> PDict items) ->
      unprocessable error
      = inr (mkResponse (error_body 422 (PStr "unprocessable")) 422)
      /\ not_found error
         = inr (mkResponse (error_body 404 (PStr "resource not found")) 404))
  /\ (forall (H : AuthService) fault request (db : Store),
      path request = elsewhere ->
      full_dispatch_request fault request db
      = (mkResponse (error_body 404 (PStr "resource not found")) 404, db)).
Proof.
  unfold unprocessable, not_found, get_error_message, getitem.
  split; [| split].
  - intros items v Hd Hl. now rewrite Hd, Hl.
  - intros Hnot.
    destruct (description error) as [| b | n | s | l | items];
      try (split; reflexivity).
    now destruct (Hnot items).
  - intros H fault request db Hp.
    unfold full_dispatch_request, dispatch_request, respond.
    rewrite Hp. now destruct (method request).
Qed.

Lemma error_handler_messages_witness :
  (unprocessable (mkHTTPException 404 (PDict [("message", PInt 7)]))
   = inr (mkResponse (error_body 422 (PInt 7)) 422)
   /\ not_found (mkHTTPException 404 (PDict [("message", PInt 7)]))
      = inr (mkResponse (error_body 404 (PInt 7)) 404))
  /\ (unprocessable (mkHTTPException 404 PNone)
      = inr (mkResponse (error_body 422 (PStr "unprocessable")) 422)
      /\ not_found (mkHTTPException 404 PNone)
         = inr (mkResponse (error_body 404 (PStr "resource not found")) 404))
  /\ @full_dispatch_request Demo.provider None
       (mkRequest POST elsewhere [] (Some Demo.latte)) Demo.menu
     = (mkResponse (error_body 404 (PStr "resource not found")) 404, Demo.menu).
Proof.
  split; [| split].
  - apply (proj1 (error_handler_messages
                    (mkHTTPException 404 (PDict [("message", PInt 7)])))
             [("message", PInt 7)] (PInt 7)); reflexivity.
  - apply (proj1 (proj2 (error_handler_messages (mkHTTPException 404 PNone)))).
    discriminate.
  - apply (proj2 (proj2 (error_handler_messages (mkHTTPException 404 PNone)))
             Demo.provider None
             (mkRequest POST elsewhere [] (Some Demo.latte)) Demo.menu).
    reflexivity.
Defined.

(* ================================================================= *)
(** ** A created drink and its id *)

Lemma ids_below_next (db : Store) d i :
  In d db -> id d = Some i -> i < next_id db.
Proof.
  unfold next_id. induction db as [| r db IH]; cbn [fold_right In]; [tauto |].
  intros [-> | Hin] Hid.
  - rewrite Hid. lia.
  - specialize (IH Hin Hid). destruct (id r); lia.
Qed.

Lemma next_id_is_fresh (db : Store) r :
  In r db -> has_id (next_id db) r = false.
Proof.
  intros Hin. unfold has_id. destruct (id r) as [i |] eqn:Hid; [| reflexivity].
  pose proof (ids_below_next db r i Hin Hid). apply Z.eqb_neq. lia.
Qed.

Lemma find_fresh (db : Store) : find (has_id (next_id db)) db = None.
Proof.
  destruct (find (has_id (next_id db)) db) as [r |] eqn:Hf; [| reflexivity].
  apply find_some in Hf as [Hin Hr].
  now rewrite (next_id_is_fresh db r Hin) in Hr.
Qed.

Lemma find_app_new (db : Store) d i :
  find (has_id i) (db ++ [d])%list
  = match find (has_id i) db with
    | Some r => Some r
    | None => if has_id i d then Some d else None
    end.
Proof.
  induction db as [| r db IH]; simpl; [reflexivity |].
  destruct (has_id i r); [reflexivity | exact IH].
Qed.

Lemma delete_new_row (db : Store) d :
  id d = Some (next_id db) ->
  filter (fun r => negb (same_row d r)) (db ++ [d])%list = db.
Proof.
  intros Hid. rewrite filter_app. cbn [filter].
  assert (Hdd : same_row d d = true).
  { unfold same_row. rewrite Hid. unfold has_id. rewrite Hid.
    apply Z.eqb_refl. }
  rewrite Hdd. cbn [negb]. rewrite app_nil_r.
  apply forallb_filter_id, forallb_forall. intros r Hin.
  now rewrite (same_row_has_id _ _ _ Hid), (next_id_is_fresh db r Hin).
Qed.

(** X12: a [POST /drinks] with a valid token, a truthy title and a truthy
    recipe, when the insert commits, is answered 200 with the one new drink,
    which carries the submitted title and recipe and an id no drink of the
    table had; afterwards that id finds the new drink and every other id
    finds what it found before. *)
Theorem create_then_found `{AuthService} request payload (db : Store) items :
  method request = POST -> path request = drinks ->
  authorized "post:drinks" (headers request) payload ->
  json request = Some (PDict items) ->
  truth (dict_get items "title") = true ->
  truth (dict_get items "recipe") = true ->
  exists drink db',
    full_dispatch_request None request db
    = (mkResponse (success_body "drinks" (PList [long drink])) 200, db')
    /\ title drink = dict_get items "title"
    /\ json_loads (recipe drink) = dict_get items "recipe"
    /\ id drink = Some (next_id db)
    /\ find (has_id (next_id db)) db = None
    /\ find (has_id (next_id db)) db' = Some drink
    /\ forall i, i <> next_id db ->
                 find (has_id i) db' = find (has_id i) db.
Proof.
  intros Hm Hp Hauth Hbody Ht Hr.
  unfold full_dispatch_request, dispatch_request, respond.
  rewrite Hp, Hm, (requires_auth_authorized _ _ _ _ Hauth).
  unfold create_drink, get_json, get, bind, ret, try_except, insert.
  rewrite Hbody.
  assert (Hne : truth (PDict items) = true).
  { destruct items; [discriminate Ht | reflexivity]. }
  rewrite Hne. cbn [negb]. rewrite Ht, Hr. cbn [negb].
  do 2 eexists. split; [reflexivity |].
  repeat split.
  - apply find_fresh.
  - rewrite find_app_new, find_fresh. unfold has_id. simpl.
    now rewrite Z.eqb_refl.
  - intros i Hi. rewrite find_app_new.
    destruct (find (has_id i) db); [reflexivity |].
    unfold has_id. simpl.
    destruct (next_id db =? i) eqn:E; [| reflexivity].
    apply Z.eqb_eq in E. congruence.
Qed.

Lemma create_then_found_witness :
  exists drink db',
    @full_dispatch_request Demo.provider None
      (mkRequest POST drinks (Demo.bearer "manager") (Some Demo.latte))
      Demo.menu
    = (mkResponse (success_body "drinks" (PList [long drink])) 200, db')
    /\ title drink = PStr "Latte"
    /\ json_loads (recipe drink) = Demo.latte_recipe
    /\ id drink = Some 3
    /\ find (has_id 3) Demo.menu = None
    /\ find (has_id 3) db' = Some drink
    /\ forall i, i <> 3 -> find (has_id i) db' = find (has_id i) Demo.menu.
Proof.
  apply (@create_then_found Demo.provider
           (mkRequest POST drinks (Demo.bearer "manager") (Some Demo.latte))
           Demo.manager Demo.menu
           [("title", PStr "Latte"); ("recipe", Demo.latte_recipe)]);
    try reflexivity.
  split; reflexivity.
Defined.

(** X13: creating a drink and then deleting the id the creation returned,
    both with valid tokens and a store that commits, is answered 200 twice
    and gives back the table as it was before the two requests. *)
Theorem create_then_delete `{AuthService} post del payload payload'
    (db : Store) items :
  method post = POST -> path post = drinks ->
  authorized "post:drinks" (headers post) payload ->
  json post = Some (PDict items) ->
  truth (dict_get items "title") = true ->
  truth (dict_get items "recipe") = true ->
  method del = DELETE -> path del = drinks_id (next_id db) ->
  authorized "delete:drinks" (headers del) payload' ->
  status (fst (full_dispatch_request None post db)) = 200
  /\ full_dispatch_request None del (snd (full_dispatch_request None post db))
     = (mkResponse (success_body "deleted" (PInt (next_id db))) 200, db).
Proof.
  intros Hm Hp Hauth Hbody Ht Hr Hm' Hp' Hauth'.
  unfold full_dispatch_request, dispatch_request, respond.
  rewrite Hp, Hm, (requires_auth_authorized _ _ _ _ Hauth).
  rewrite Hp', Hm', (requires_auth_authorized _ _ _ _ Hauth').
  unfold create_drink, get_json, get, bind, ret, try_except, insert.
  rewrite Hbody.
  assert (Hne : truth (PDict items) = true).
  { destruct items; [discriminate Ht | reflexivity]. }
  rewrite Hne. cbn [negb]. rewrite Ht, Hr. cbn [negb fst snd].
  split; [reflexivity |].
  unfold delete_drinks, query_get, bind, ret, try_except, delete.
  rewrite find_app_new, find_fresh. unfold has_id at 1. cbn [id].
  rewrite Z.eqb_refl, delete_new_row by reflexivity.
  reflexivity.
Qed.

Lemma create_then_delete_witness :
  status (fst (@full_dispatch_request Demo.provider None
                 (mkRequest POST drinks (Demo.bearer "manager")
                    (Some Demo.latte)) Demo.menu)) = 200
  /\ @full_dispatch_request Demo.provider None
       (mkRequest DELETE (drinks_id 3) (Demo.bearer "manager") None)
       (snd (@full_dispatch_request Demo.provider None
               (mkRequest POST drinks (Demo.bearer "manager")
                  (Some Demo.latte)) Demo.menu))
     = (mkResponse (success_body "deleted" (PInt 3)) 200, Demo.menu).
Proof.
  apply (@create_then_delete Demo.provider
           (mkRequest POST drinks (Demo.bearer "manager") (Some Demo.latte))
           (mkRequest DELETE (drinks_id 3) (Demo.bearer "manager") None)
           Demo.manager Demo.manager Demo.menu
           [("title", PStr "Latte"); ("recipe", Demo.latte_recipe)]);
    try reflexivity.
  - split; reflexivity.
  - split; reflexivity.
Defined.

(* ================================================================= *)
(** ** Writes and the rest of the table *)

Lemma patched_id drink t r : id (patched drink t r) = id drink.
Proof. unfold patched. now destruct (truth t), (truth r). Qed.

Lemma patched_twice drink t r :
  patched (patched drink t r) t r = patched drink t r.
Proof.
  unfold patched. destruct (truth t) eqn:Ht, (truth r) eqn:Hr; simpl;
    try reflexivity; now destruct drink.
Qed.

Lemma update_drink_commits request payload drink_id drink (db : Store) items :
  json request = Some (PDict items) -> items <> [] ->
  find (has_id drink_id) db = Some drink ->
  update_drink None request payload drink_id db
  = (inr (mkResponse
            (success_body "drinks"
               (PList [long (patched drink (dict_get items "title")
                               (dict_get items "recipe"))])) 200),
     map (fun r => if same_row (patched drink (dict_get items "title")
                                  (dict_get items "recipe")) r
                   then patched drink (dict_get items "title")
                          (dict_get items "recipe")
                   else r) db).
Proof.
  intros Hbody Hne Hfound.
  unfold update_drink, get_json, get, query_get, bind, ret, try_except, update.
  rewrite Hbody. destruct items as [| item items]; [congruence |].
  cbn [truth negb]. rewrite Hfound. reflexivity.
Qed.

Lemma find_replaced_other d i j (db : Store) :
  id d = Some j -> i <> j ->
  find (has_id i) (map (fun r => if same_row d r then d else r) db)
  = find (has_id i) db.
Proof.
  intros Hid Hij. induction db as [| r db IH]; simpl; [reflexivity |].
  rewrite (same_row_has_id _ _ _ Hid), IH.
  destruct (has_id j r) eqn:Hr; [| reflexivity].
  assert (Hd : has_id i d = false).
  { unfold has_id. rewrite Hid. apply Z.eqb_neq. congruence. }
  assert (Hr' : has_id i r = false).
  { unfold has_id in *. destruct (id r) as [k |]; [| reflexivity].
    apply Z.eqb_eq in Hr. apply Z.eqb_neq. congruence. }
  now rewrite Hd, Hr'.
Qed.

Lemma find_removed_other d i j (db : Store) :
  id d = Some j -> i <> j ->
  find (has_id i) (filter (fun r => negb (same_row d r)) db)
  = find (has_id i) db.
Proof.
  intros Hid Hij. induction db as [| r db IH]; simpl; [reflexivity |].
  rewrite (same_row_has_id _ _ _ Hid).
  destruct (has_id j r) eqn:Hr; simpl; [| now rewrite IH].
  assert (Hr' : has_id i r = false).
  { unfold has_id in *. destruct (id r) as [k |]; [| reflexivity].
    apply Z.eqb_eq in Hr. apply Z.eqb_neq. congruence. }
  now rewrite Hr', IH.
Qed.

Lemma replace_again d (db : Store) :
  map (fun r => if same_row d r then d else r)
    (map (fun r => if same_row d r then d else r) db)
  = map (fun r => if same_row d r then d else r) db.
Proof.
  rewrite map_map. apply map_ext. intros r.
  destruct (same_row d r) eqn:Hr; [| now rewrite Hr].
  unfold same_row in *. destruct (id d) as [i |] eqn:Hid; [| discriminate].
  unfold has_id. now rewrite Hid, Z.eqb_refl.
Qed.

(** X14: a request addressed to [/drinks/<id>] never changes what any other
    id finds: whatever the method, the token, the body and the store's
    behaviour, the rows of the other drinks are after the request what they
    were before. *)
Theorem other_drinks_untouched `{AuthService} fault request drink_id
    (db : Store) i :
  path request = drinks_id drink_id -> i <> drink_id ->
  find (has_id i) (snd (full_dispatch_request fault request db))
  = find (has_id i) db.
Proof.
  intros Hp Hi.
  unfold full_dispatch_request, dispatch_request, respond. rewrite Hp.
  destruct (method request); try reflexivity; unfold requires_auth;
    (destruct (claims_verifier (headers request)) as [e | payload];
     [reflexivity |]);
    (destruct (permission_gate _ payload) as [e | []]; [reflexivity |]).
  - pose proof (update_drink_outcome fault request payload drink_id db) as Ho.
    destruct fault as [detail |].
    + destruct (update_drink (Some detail) request payload drink_id db)
        as [[e | r] db'] eqn:Hu; simpl in *; [now destruct Ho as [-> _] |].
      revert Hu.
      unfold update_drink, get, query_get, bind, ret, try_except, update,
        abort, raise.
      destruct (negb (truth (get_json request))); [discriminate |].
      destruct (find (has_id drink_id) db); [| discriminate].
      destruct (get_json request); discriminate.
    + destruct (get_json request) as [| b | n | s | l | items] eqn:Hbody;
        try (unfold update_drink, get, query_get, bind, ret, raise, abort;
             rewrite Hbody;
             destruct (negb (truth _)); [reflexivity |];
             destruct (find (has_id drink_id) db); reflexivity).
      unfold update_drink. rewrite Hbody.
      destruct items as [| item items]; [reflexivity |].
      cbn [truth negb]. unfold query_get, bind.
      destruct (find (has_id drink_id) db) as [drink |] eqn:Hfound;
        [| reflexivity].
      pose proof (found_has_id _ _ _ Hfound) as Hid.
      unfold get, ret, try_except, update.
      cbn [snd].
      apply find_replaced_other with (j := drink_id); [| exact Hi].
      now destruct (truth (dict_get _ "title")), (truth (dict_get _ "recipe")).
  - unfold delete_drinks, query_get, bind, ret, try_except, delete, abort, raise.
    destruct (find (has_id drink_id) db) as [drink |] eqn:Hfound;
      [| reflexivity].
    pose proof (found_has_id _ _ _ Hfound) as Hid.
    destruct fault as [detail |]; [reflexivity |]. cbn [snd].
    now apply find_removed_other with (j := drink_id).
Qed.

Lemma other_drinks_untouched_witness :
  find (has_id 2)
    (snd (@full_dispatch_request Demo.provider None
            (mkRequest DELETE (drinks_id 1) (Demo.bearer "manager") None)
            Demo.menu))
  = find (has_id 2) Demo.menu.
Proof.
  apply (@other_drinks_untouched Demo.provider None
           (mkRequest DELETE (drinks_id 1) (Demo.bearer "manager") None)
           1 Demo.menu 2).
  - reflexivity.
  - discriminate.
Defined.

(** X15: [PATCH /drinks/<id>] is idempotent: with a valid token, a non-empty
    JSON object and an update that commits, the same request sent a second
    time is answered as the first time and leaves the table as the first
    left it. *)
Theorem patch_is_idempotent `{AuthService} request payload drink_id drink
    (db : Store) items :
  method request = PATCH -> path request = drinks_id drink_id ->
  authorized "patch:drinks" (headers request) payload ->
  json request = Some (PDict items) -> items <> [] ->
  find (has_id drink_id) db = Some drink ->
  full_dispatch_request None request
    (snd (full_dispatch_request None request db))
  = full_dispatch_request None request db.
Proof.
  intros Hm Hp Hauth Hbody Hne Hfound.
  pose proof (found_has_id _ _ _ Hfound) as Hid.
  unfold full_dispatch_request, dispatch_request, respond.
  rewrite Hp, Hm, (requires_auth_authorized _ _ _ _ Hauth).
  rewrite (update_drink_commits request payload drink_id drink db items
             Hbody Hne Hfound).
  cbn [snd].
  assert (Hid' : id (patched drink (dict_get items "title")
                       (dict_get items "recipe")) = Some drink_id)
    by now rewrite patched_id.
  rewrite (update_drink_commits request payload drink_id
             (patched drink (dict_get items "title") (dict_get items "recipe"))
             _ items Hbody Hne (find_updated drink _ drink_id db Hid' Hfound)).
  now rewrite patched_twice, replace_again.
Qed.

Lemma patch_is_idempotent_witness :
  @full_dispatch_request Demo.provider None
    (mkRequest PATCH (drinks_id 2) (Demo.bearer "manager") (Some Demo.latte))
    (snd (@full_dispatch_request Demo.provider None
            (mkRequest PATCH (drinks_id 2) (Demo.bearer "manager")
               (Some Demo.latte)) Demo.menu))
  = @full_dispatch_request Demo.provider None
      (mkRequest PATCH (drinks_id 2) (Demo.bearer "manager") (Some Demo.latte))
      Demo.menu.
Proof.
  apply (@patch_is_idempotent Demo.provider
           (mkRequest PATCH (drinks_id 2) (Demo.bearer "manager")
              (Some Demo.latte))
           Demo.manager 2 Demo.mocha Demo.menu
           [("title", PStr "Latte"); ("recipe", Demo.latte_recipe)]);
    try reflexivity.
  - split; reflexivity.
  - discriminate.
Defined.
